(** * Ec2AutoShutdownStack: the declared stack and its synthesized template

    The repository declares one stack, [Ec2AutoShutdownStack]
    (ec2_auto_shutdown/ec2_auto_shutdown_stack.py), through the AWS CDK
    construct library, and one unit test that synthesizes it
    (tests/unit/test_ec2_auto_shutdown_stack.py).

    The stack's [__init__] is a sequence of constructor calls that add
    constructs to a shared construct tree and one method call that mutates a
    construct already in the tree.  The embedding keeps that shape: the
    construct tree is an explicit store, constructs are handles (paths) into
    it, and the Python statements become a program in a reader, state and
    error monad (the reader is the file system the asset is looked up in, the
    error is the Python exception).

    The part of the construct library that the stack calls ([Duration],
    [aws_lambda], [aws_iam], [aws_events], [aws_events_targets],
    [assertions.Template]) is a third-party dependency; it is modelled here
    after the library's behaviour for exactly the calls the stack makes.
    Logical ids, which the library derives from a construct's path inside its
    stack, are kept as that path. *)

From Stdlib Require Import String List ZArith Bool Arith Lia DecimalString.
Import ListNotations.
Open Scope string_scope.
Open Scope list_scope.

Set Implicit Arguments.

(** ** Paths in the construct tree *)

Definition Path := list string.

Fixpoint path_eqb (p q : Path) : bool :=
  match p, q with
  | [], [] => true
  | a :: p', b :: q' => String.eqb a b && path_eqb p' q'
  | _, _ => false
  end.

Fixpoint is_prefix (p q : Path) : bool :=
  match p, q with
  | [], _ => true
  | a :: p', b :: q' => String.eqb a b && is_prefix p' q'
  | _ :: _, [] => false
  end.

(** ** Exceptions *)

Inductive Error :=
| DuplicateConstruct (scope : Path) (id : string)
| AssetNotFound (path : string)
| CronDayAndWeekDay
| NegativeDuration
| RuleWithoutSchedule (rule : Path)
| NoSuchConstruct (p : Path).

Inductive result (A : Type) :=
| Ok (a : A)
| Err (e : Error).
Arguments Ok {A} a.
Arguments Err {A} e.

(** ** CloudFormation resources, as they appear in a template *)

Module Cfn.

(** A reference to another resource is [{"Fn::GetAtt": [id, "Arn"]}]; all
    references of this stack are of that form, so the id stands for it. *)
Definition LogicalId := Path.

Record Target := { Arn : LogicalId; Id : string }.

Record FunctionProperties := {
  Code_S3Key : string;
  Handler : string;
  Role : LogicalId;
  Runtime : string;
  Timeout : option Z;
  MemorySize : option Z;
  ReservedConcurrentExecutions : option Z
}.

Inductive Resource :=
| IAM_Role (AssumeRoleService : string) (ManagedPolicies : list string)
| Lambda_Function (Properties : FunctionProperties) (DependsOn : list LogicalId)
| Events_Rule (ScheduleExpression : option string) (State : string)
              (Targets : list Target)
| Lambda_Permission (Action : string) (FunctionName : LogicalId)
                    (Principal : string) (SourceArn : LogicalId).

Definition type_of (r : Resource) : string :=
  match r with
  | IAM_Role _ _ => "AWS::IAM::Role"
  | Lambda_Function _ _ => "AWS::Lambda::Function"
  | Events_Rule _ _ _ => "AWS::Events::Rule"
  | Lambda_Permission _ _ _ _ => "AWS::Lambda::Permission"
  end.

Record Template := {
  Description : option string;
  Resources : list (LogicalId * Resource);
  Parameters : list string;
  Rules : list string
}.

End Cfn.

(** ** The construct tree *)

(** Keyword arguments of [Stack.__init__] that reach the template or name
    the stack. *)
Record StackProps := {
  description : option string;
  stack_name : option string;
  termination_protection : option bool
}.

Definition no_kwargs : StackProps :=
  {| description := None; stack_name := None; termination_protection := None |}.

(** What a construct in the tree holds.  A resource held by an [OCfn] node
    refers to other resources by their path from the root; a rule's targets
    live on the rule construct (the parent of its resource), where
    [add_target] appends to them, and are read when the template is
    rendered. *)
Inductive Object :=
| OApp
| OStack (props : StackProps)
| OConstruct
| OAsset (source_hash : string)
| ORule (targets : list Cfn.Target)
| OCfn (r : Cfn.Resource).

Definition Tree := list (Path * Object).

Fixpoint find (p : Path) (t : Tree) : option Object :=
  match t with
  | [] => None
  | (q, o) :: t' => if path_eqb p q then Some o else find p t'
  end.

Fixpoint replace (p : Path) (o : Object) (t : Tree) : Tree :=
  match t with
  | [] => []
  | (q, o') :: t' =>
      if path_eqb p q then (q, o) :: t' else (q, o') :: replace p o t'
  end.

(** ** The monad of construct code *)

(** The directories assets can be taken from, each with the fingerprint of
    its content. *)
Definition FileSystem := string -> option string.

Definition M (A : Type) := FileSystem -> Tree -> result (A * Tree).

Definition ret {A} (a : A) : M A := fun _ t => Ok (a, t).

Definition bind {A B} (c : M A) (k : A -> M B) : M B :=
  fun fs t =>
    match c fs t with
    | Ok (a, t') => k a fs t'
    | Err e => Err e
    end.

Definition raise {A} (e : Error) : M A := fun _ _ => Err e.

Definition lift {A} (r : result A) : M A :=
  fun _ t => match r with Ok a => Ok (a, t) | Err e => Err e end.

Definition get_tree : M Tree := fun _ t => Ok (t, t).
Definition put_tree (t : Tree) : M unit := fun _ _ => Ok (tt, t).
Definition ask_fs : M FileSystem := fun fs t => Ok (fs, t).

Declare Scope cdk_scope.
Delimit Scope cdk_scope with cdk.
Notation "x <- c ;; k" := (bind c (fun x => k))
  (at level 61, c at next level, right associativity) : cdk_scope.
Notation "c ;;; k" := (bind c (fun _ => k))
  (at level 61, right associativity) : cdk_scope.
Open Scope cdk_scope.

(** [Construct.__init__(scope, id)]: the new construct becomes a child of
    [scope]; a second child of the same name is refused. *)
Definition Construct (scope : Path) (id : string) (o : Object) : M Path :=
  t <- get_tree ;;
  match find scope t with
  | None => raise (NoSuchConstruct scope)
  | Some _ =>
      match find (scope ++ [id]) t with
      | Some _ => raise (DuplicateConstruct scope id)
      | None => put_tree (t ++ [(scope ++ [id], o)]) ;;; ret (scope ++ [id])
      end
  end.

(** [node.try_find_child(id)] *)
Definition try_find_child (scope : Path) (id : string) : M (option Object) :=
  t <- get_tree ;; ret (find (scope ++ [id]) t).

(** [Names.node_unique_id]: the components of the path from the root, joined
    (the library appends a hash of the same path). *)
Definition node_unique_id (p : Path) : string := String.concat "" p.

(** ** aws_cdk.Duration *)

Module Duration.

Inductive TimeUnit := Seconds | Minutes | Hours | Days.

Record t := { amount : Z; unit : TimeUnit }.

Definition seconds (n : Z) : result t :=
  if (n <? 0)%Z then Err NegativeDuration
  else Ok {| amount := n; unit := Seconds |}.

Definition to_seconds (d : t) : Z :=
  match unit d with
  | Seconds => amount d
  | Minutes => amount d * 60
  | Hours => amount d * 3600
  | Days => amount d * 86400
  end%Z.

End Duration.

(** ** aws_cdk.aws_iam *)

Module iam.

(** [Role(scope, id, assumed_by=ServicePrincipal(service),
    managed_policies=...)] *)
Definition Role (scope : Path) (id : string) (service : string)
    (managed_policies : list string) : M Path :=
  self <- Construct scope id OConstruct ;;
  Construct self "Resource" (OCfn (Cfn.IAM_Role service managed_policies)) ;;;
  ret self.

End iam.

(** ** aws_cdk.aws_lambda *)

Module _lambda.

Inductive Runtime :=
| PYTHON_3_9 | PYTHON_3_10 | PYTHON_3_11 | PYTHON_3_12 | PYTHON_3_13.

Definition runtime_name (r : Runtime) : string :=
  match r with
  | PYTHON_3_9 => "python3.9"
  | PYTHON_3_10 => "python3.10"
  | PYTHON_3_11 => "python3.11"
  | PYTHON_3_12 => "python3.12"
  | PYTHON_3_13 => "python3.13"
  end.

Inductive Code := AssetCode (path : string).

Module Code.
Definition from_asset (path : string) : Code := AssetCode path.

(** Binding the code to a function stages the directory as an asset
    under the function; a directory that does not exist is an error.
    The result is the key of the staged archive. *)
Definition bind_to (c : Code) (scope : Path) : M string :=
  let 'AssetCode path := c in
  fs <- ask_fs ;;
  match fs path with
  | None => raise (AssetNotFound path)
  | Some h => Construct scope "Code" (OAsset h) ;;; ret (h ++ ".zip")%string
  end.
End Code.

(** The keyword arguments of [Function]. *)
Record FunctionProps := {
  runtime : Runtime;
  handler : string;
  code : Code;
  timeout : option Duration.t;
  memory_size : option Z;
  reserved_concurrent_executions : option Z
}.

(** The resource a function construct stands for. *)
Definition resource_of (fn : Path) : Path := fn ++ ["Resource"].

Definition Function (scope : Path) (id : string) (props : FunctionProps)
    : M Path :=
  self <- Construct scope id OConstruct ;;
  role <- iam.Role self "ServiceRole" "lambda.amazonaws.com"
            ["service-role/AWSLambdaBasicExecutionRole"] ;;
  key <- Code.bind_to (code props) self ;;
  Construct self "Resource"
    (OCfn (Cfn.Lambda_Function
       {| Cfn.Code_S3Key := key;
          Cfn.Handler := handler props;
          Cfn.Role := role ++ ["Resource"];
          Cfn.Runtime := runtime_name (runtime props);
          Cfn.Timeout := option_map Duration.to_seconds (timeout props);
          Cfn.MemorySize := memory_size props;
          Cfn.ReservedConcurrentExecutions :=
            reserved_concurrent_executions props |}
       [role ++ ["Resource"]])) ;;;
  ret self.

(** [fn.add_permission(id, scope=..., action=..., principal=...,
    source_arn=...)] *)
Definition add_permission (fn : Path) (id : string) (scope : Path)
    (action principal : string) (source : Path) : M unit :=
  Construct scope id
    (OCfn (Cfn.Lambda_Permission action (resource_of fn) principal source)) ;;;
  ret tt.

End _lambda.


(** ** aws_cdk.aws_events *)

Module events.

Record CronOptions := {
  minute : option string;
  hour : option string;
  day : option string;
  month : option string;
  week_day : option string;
  year : option string
}.

Record Schedule := { expression_string : string }.

Definition fallback (x : option string) (def : string) : string :=
  match x with
  | Some v => v
  | None => def
  end.

Module Schedule.

(** [Schedule.cron(minute=..., hour=..., ...)]: a field that is not given is "every"; the
    day of the week is "no specific value" unless given, and then the day of
    the month is; giving both is an error. *)
Definition cron (o : CronOptions) : result Schedule :=
  match week_day o, day o with
  | Some _, Some _ => Err CronDayAndWeekDay
  | _, _ =>
      let minute' := fallback (minute o) "*" in
      let hour' := fallback (hour o) "*" in
      let month' := fallback (month o) "*" in
      let year' := fallback (year o) "*" in
      let day' := fallback (day o)
                    (match week_day o with Some _ => "?" | None => "*" end) in
      let week_day' := fallback (week_day o) "?" in
      Ok {| expression_string :=
              ("cron(" ++ minute' ++ " " ++ hour' ++ " " ++ day' ++ " "
                 ++ month' ++ " " ++ week_day' ++ " " ++ year' ++ ")")%string |}
  end.

End Schedule.

(** The keyword arguments of [Rule]. *)
Record RuleProps := {
  schedule : option Schedule;
  enabled : option bool
}.

(** What a target hands back when it is bound to a rule. *)
Record RuleTargetConfig := {
  arn : Path;
  id : option string
}.

(** The interface of rule targets: [bind(rule, id)]. *)
Record IRuleTarget := {
  bind_to_rule : Path -> string -> M RuleTargetConfig
}.

(** The resource a rule construct stands for. *)
Definition resource_of (rule : Path) : Path := rule ++ ["Resource"].

Definition Rule (scope : Path) (id : string) (props : RuleProps) : M Path :=
  self <- Construct scope id (ORule []) ;;
  Construct self "Resource"
    (OCfn (Cfn.Events_Rule
       (option_map expression_string (schedule props))
       (match enabled props with
        | Some false => "DISABLED"
        | _ => "ENABLED"
        end)
       [])) ;;;
  ret self.

(** The targets registered on a rule so far. *)
Definition targets_of (rule : Path) : M (list Cfn.Target) :=
  t <- get_tree ;;
  match find rule t with
  | Some (ORule ts) => ret ts
  | _ => raise (NoSuchConstruct rule)
  end.

Definition string_of_nat (n : nat) : string :=
  NilEmpty.string_of_uint (Nat.to_uint n).

(** [rule.add_target(target)]: the target is bound to the rule under the
    generated id [Target<n>], [n] the number of targets registered before
    the call, and pushed onto the rule's list of targets. *)
Definition add_target (rule : Path) (target : IRuleTarget) : M unit :=
  ts <- targets_of rule ;;
  let auto_generated_id := ("Target" ++ string_of_nat (length ts))%string in
  cfg <- bind_to_rule target rule auto_generated_id ;;
  ts' <- targets_of rule ;;
  t <- get_tree ;;
  put_tree
    (replace rule
       (ORule (ts' ++ [ {| Cfn.Arn := arn cfg;
                           Cfn.Id := fallback (id cfg) auto_generated_id |} ]))
       t).

End events.

(** ** aws_cdk.aws_events_targets *)

Module targets.

(** Lets the rule invoke the function: one permission per function is
    declared under the rule, the first time the function is bound to it. *)
Definition add_lambda_permission (rule handler : Path) : M unit :=
  let permission_id :=
    ("AllowEventRule" ++ node_unique_id handler)%string in
  child <- try_find_child rule permission_id ;;
  match child with
  | Some _ => ret tt
  | None =>
      _lambda.add_permission handler permission_id rule
        "lambda:InvokeFunction" "events.amazonaws.com"
        (events.resource_of rule)
  end.

(** [LambdaFunction(handler)] *)
Definition LambdaFunction (handler : Path) : events.IRuleTarget :=
  {| events.bind_to_rule := fun rule _ =>
       add_lambda_permission rule handler ;;;
       ret {| events.arn := _lambda.resource_of handler;
              events.id := None |} |}.

End targets.

(** ** aws_cdk.Stack and aws_cdk.App *)

Definition Stack (scope : Path) (id : string) (kwargs : StackProps) : M Path :=
  Construct scope id (OStack kwargs).

Module core.

(** [App()]: a tree of its own, holding the root only. *)
Definition App : Tree := [([], OApp)].

End core.

(** ** ec2_auto_shutdown/ec2_auto_shutdown_stack.py *)

Definition shutdown_lambda_props (timeout : Duration.t) : _lambda.FunctionProps :=
  {| _lambda.runtime := _lambda.PYTHON_3_13;
     _lambda.handler := "handler.lambda_handler";
     _lambda.code := _lambda.Code.from_asset "ec2_auto_shutdown/lambda";
     _lambda.timeout := Some timeout;
     _lambda.memory_size := None;
     _lambda.reserved_concurrent_executions := None |}.

Definition rule_cron_options : events.CronOptions :=
  {| events.minute := Some "0";
     events.hour := Some "18";
     events.day := None;
     events.month := None;
     events.week_day := None;
     events.year := None |}.

Definition Ec2AutoShutdownStack (scope : Path) (construct_id : string)
    (kwargs : StackProps) : M Path :=
  self <- Stack scope construct_id kwargs ;;
  timeout <- lift (Duration.seconds 60) ;;
  shutdown_lambda <-
    _lambda.Function self "Ec2AutoShutdownFunction"
      (shutdown_lambda_props timeout) ;;
  schedule <- lift (events.Schedule.cron rule_cron_options) ;;
  rule <-
    events.Rule self "DailyShutdownRule"
      {| events.schedule := Some schedule; events.enabled := None |} ;;
  events.add_target rule (targets.LambdaFunction shutdown_lambda) ;;;
  ret self.

(** ** aws_cdk.assertions *)

Module assertions.

(** Synthesis validates the whole tree first: a rule needs a schedule (event
    patterns are not declared anywhere in this tree model). *)
Fixpoint validate (t : Tree) : result unit :=
  match t with
  | [] => Ok tt
  | (p, OCfn (Cfn.Events_Rule None _ _)) :: _ =>
      Err (RuleWithoutSchedule (removelast p))
  | _ :: t' => validate t'
  end.

(** A resource's logical id: its path inside its stack. *)
Definition logical_id (stack p : Path) : Cfn.LogicalId :=
  skipn (length stack) p.

Definition render_target (stack : Path) (tg : Cfn.Target) : Cfn.Target :=
  {| Cfn.Arn := logical_id stack (Cfn.Arn tg); Cfn.Id := Cfn.Id tg |}.

(** A rule's targets are read from the rule construct when the template is
    rendered. *)
Definition registered_targets (t : Tree) (rule : Path) : list Cfn.Target :=
  match find rule t with
  | Some (ORule ts) => ts
  | _ => []
  end.

Definition render_resource (stack : Path) (t : Tree) (p : Path)
    (r : Cfn.Resource) : Cfn.Resource :=
  match r with
  | Cfn.IAM_Role s ps => Cfn.IAM_Role s ps
  | Cfn.Lambda_Function props deps =>
      Cfn.Lambda_Function
        {| Cfn.Code_S3Key := Cfn.Code_S3Key props;
           Cfn.Handler := Cfn.Handler props;
           Cfn.Role := logical_id stack (Cfn.Role props);
           Cfn.Runtime := Cfn.Runtime props;
           Cfn.Timeout := Cfn.Timeout props;
           Cfn.MemorySize := Cfn.MemorySize props;
           Cfn.ReservedConcurrentExecutions :=
             Cfn.ReservedConcurrentExecutions props |}
        (map (logical_id stack) deps)
  | Cfn.Events_Rule s st _ =>
      Cfn.Events_Rule s st
        (map (render_target stack) (registered_targets t (removelast p)))
  | Cfn.Lambda_Permission a f pr src =>
      Cfn.Lambda_Permission a (logical_id stack f) pr (logical_id stack src)
  end.

Definition render_node (stack : Path) (t : Tree) (n : Path * Object)
    : list (Cfn.LogicalId * Cfn.Resource) :=
  match n with
  | (p, OCfn r) =>
      if is_prefix stack p
      then [(logical_id stack p, render_resource stack t p r)]
      else []
  | _ => []
  end.

(** The resources of a stack: those of the constructs below it, in the
    order they were declared. *)
Definition resources (stack : Path) (t : Tree)
    : list (Cfn.LogicalId * Cfn.Resource) :=
  flat_map (render_node stack t) t.

Module Template.

(** [Template.from_stack(stack)] *)
Definition from_stack (stack : Path) : M Cfn.Template :=
  t <- get_tree ;;
  lift (validate t) ;;;
  match find stack t with
  | Some (OStack props) =>
      ret {| Cfn.Description := description props;
             Cfn.Resources := resources stack t;
             Cfn.Parameters := ["BootstrapVersion"];
             Cfn.Rules := ["CheckBootstrapVersion"] |}
  | _ => raise (NoSuchConstruct stack)
  end.

End Template.

End assertions.

(** ** tests/unit/test_ec2_auto_shutdown_stack.py *)

(** The body of the test, for any stack class in place of the imported one:
    the assertion on the template is a comment, so the template is bound
    and dropped. *)
Definition test_body (stack_class : Path -> string -> StackProps -> M Path)
    : M unit :=
  stack <- stack_class [] "ec2-auto-shutdown" no_kwargs ;;
  template <- assertions.Template.from_stack stack ;;
  ret tt.

(** The outcome of a test: it passes unless an exception escapes. *)
Definition run_test (body : M unit) (fs : FileSystem) : result unit :=
  match body fs core.App with
  | Ok _ => Ok tt
  | Err e => Err e
  end.

Definition test_sqs_queue_created : FileSystem -> result unit :=
  run_test (test_body Ec2AutoShutdownStack).

(** ** Synthesis of the stack *)

(** The stack instantiated under [scope] in the tree [t0] and rendered. *)
Definition synth_in (fs : FileSystem) (t0 : Tree) (scope : Path)
    (construct_id : string) (kwargs : StackProps) : result Cfn.Template :=
  match (stack <- Ec2AutoShutdownStack scope construct_id kwargs ;;
         assertions.Template.from_stack stack) fs t0 with
  | Ok (tpl, _) => Ok tpl
  | Err e => Err e
  end.

(** The stack instantiated in an application of its own, as the test does. *)
Definition synth (fs : FileSystem) (construct_id : string)
    (kwargs : StackProps) : result Cfn.Template :=
  synth_in fs core.App [] construct_id kwargs.

(** The same, with the binding of line 29 declared a second time on the
    same rule, for the same function, before the template is rendered. *)
Definition synth_rebound (fs : FileSystem) (construct_id : string)
    (kwargs : StackProps) : result Cfn.Template :=
  match (stack <- Ec2AutoShutdownStack [] construct_id kwargs ;;
         events.add_target (stack ++ ["DailyShutdownRule"])
           (targets.LambdaFunction (stack ++ ["Ec2AutoShutdownFunction"])) ;;;
         assertions.Template.from_stack stack) fs core.App with
  | Ok (tpl, _) => Ok tpl
  | Err e => Err e
  end.

(** A checkout of the repository: the directory of the handler exists. *)
Definition repo_fs : FileSystem :=
  fun path =>
    if String.eqb path "ec2_auto_shutdown/lambda" then Some "asset0" else None.

(** ** Reading a template *)

Definition resources_of_type (ty : string) (tpl : Cfn.Template)
    : list (Cfn.LogicalId * Cfn.Resource) :=
  filter (fun r => String.eqb (Cfn.type_of (snd r)) ty) (Cfn.Resources tpl).

Fixpoint lookup (id : Cfn.LogicalId) (rs : list (Cfn.LogicalId * Cfn.Resource))
    : option Cfn.Resource :=
  match rs with
  | [] => None
  | (id', r) :: rs' => if path_eqb id id' then Some r else lookup id rs'
  end.

Definition schedule_expressions (tpl : Cfn.Template) : list (option string) :=
  flat_map (fun r => match snd r with
                     | Cfn.Events_Rule s _ _ => [s]
                     | _ => []
                     end) (Cfn.Resources tpl).

Definition rule_targets (tpl : Cfn.Template) : list (list Cfn.Target) :=
  flat_map (fun r => match snd r with
                     | Cfn.Events_Rule _ _ ts => [ts]
                     | _ => []
                     end) (Cfn.Resources tpl).

Definition function_properties (tpl : Cfn.Template)
    : list Cfn.FunctionProperties :=
  flat_map (fun r => match snd r with
                     | Cfn.Lambda_Function props _ => [props]
                     | _ => []
                     end) (Cfn.Resources tpl).

Definition limit (name : string) (v : option Z) : list (string * Z) :=
  match v with
  | Some z => [(name, z)]
  | None => []
  end.

(** The limits a resource declares: the properties that bound what the
    resource may use. *)
Definition limits_of (r : Cfn.Resource) : list (string * Z) :=
  match r with
  | Cfn.Lambda_Function props _ =>
      limit "Timeout" (Cfn.Timeout props)
      ++ limit "MemorySize" (Cfn.MemorySize props)
      ++ limit "ReservedConcurrentExecutions"
           (Cfn.ReservedConcurrentExecutions props)
  | _ => []
  end.

Definition resource_limits (tpl : Cfn.Template)
    : list (Cfn.LogicalId * (string * Z)) :=
  flat_map (fun r => map (pair (fst r)) (limits_of (snd r)))
    (Cfn.Resources tpl).

(** The resources a resource refers to. *)
Definition refs_of (r : Cfn.Resource) : list Cfn.LogicalId :=
  match r with
  | Cfn.IAM_Role _ _ => []
  | Cfn.Lambda_Function props deps => Cfn.Role props :: deps
  | Cfn.Events_Rule _ _ ts => map Cfn.Arn ts
  | Cfn.Lambda_Permission _ f _ src => [f; src]
  end.

(** Every reference of the template is to one of its resources. *)
Definition closed (tpl : Cfn.Template) : Prop :=
  forall id r ref, In (id, r) (Cfn.Resources tpl) -> In ref (refs_of r) ->
    lookup ref (Cfn.Resources tpl) <> None.

(** The template holds functions and rules only. *)
Definition only_function_and_rule (tpl : Cfn.Template) : Prop :=
  forall id r, In (id, r) (Cfn.Resources tpl) ->
    Cfn.type_of r = "AWS::Lambda::Function"
    \/ Cfn.type_of r = "AWS::Events::Rule".

(** ** The resources of the stack *)

Definition role_id : Cfn.LogicalId :=
  ["Ec2AutoShutdownFunction"; "ServiceRole"; "Resource"].
Definition function_id : Cfn.LogicalId :=
  ["Ec2AutoShutdownFunction"; "Resource"].
Definition rule_id : Cfn.LogicalId := ["DailyShutdownRule"; "Resource"].

Definition permission_name (handler : Path) : string :=
  ("AllowEventRule" ++ node_unique_id handler)%string.

Definition permission_id (stack : Path) : Cfn.LogicalId :=
  ["DailyShutdownRule";
   permission_name (stack ++ ["Ec2AutoShutdownFunction"])].

Definition role_resource : Cfn.Resource :=
  Cfn.IAM_Role "lambda.amazonaws.com"
    ["service-role/AWSLambdaBasicExecutionRole"].

Definition function_resource (base : Path) (h : string) : Cfn.Resource :=
  Cfn.Lambda_Function
    {| Cfn.Code_S3Key := (h ++ ".zip")%string;
       Cfn.Handler := "handler.lambda_handler";
       Cfn.Role := base ++ role_id;
       Cfn.Runtime := "python3.13";
       Cfn.Timeout := Some 60%Z;
       Cfn.MemorySize := None;
       Cfn.ReservedConcurrentExecutions := None |}
    [base ++ role_id].

Definition rule_resource (ts : list Cfn.Target) : Cfn.Resource :=
  Cfn.Events_Rule (Some "cron(0 18 * * ? *)") "ENABLED" ts.

Definition permission_resource (base : Path) : Cfn.Resource :=
  Cfn.Lambda_Permission "lambda:InvokeFunction" (base ++ function_id)
    "events.amazonaws.com" (base ++ rule_id).

(** The target with generated id [id] for the function. *)
Definition function_target (base : Path) (id : string) : Cfn.Target :=
  {| Cfn.Arn := base ++ function_id; Cfn.Id := id |}.

(** The template of the stack at [stack], for the asset fingerprint [h] and
    a rule whose targets carry the ids [ids]. *)
Definition stack_template (stack : Path) (kwargs : StackProps) (h : string)
    (ids : list string) : Cfn.Template :=
  {| Cfn.Description := description kwargs;
     Cfn.Resources :=
       [(role_id, role_resource);
        (function_id, function_resource [] h);
        (rule_id, rule_resource (map (function_target []) ids));
        (permission_id stack, permission_resource [])];
     Cfn.Parameters := ["BootstrapVersion"];
     Cfn.Rules := ["CheckBootstrapVersion"] |}.

(** The constructs of the stack, by their paths from the stack [sp]. *)
Definition stack_nodes (sp : Path) (kwargs : StackProps) (h : string)
    (ids : list string) : Tree :=
  [([], OStack kwargs);
   (["Ec2AutoShutdownFunction"], OConstruct);
   (["Ec2AutoShutdownFunction"; "ServiceRole"], OConstruct);
   (role_id, OCfn role_resource);
   (["Ec2AutoShutdownFunction"; "Code"], OAsset h);
   (function_id, OCfn (function_resource sp h));
   (["DailyShutdownRule"], ORule (map (function_target sp) ids));
   (rule_id, OCfn (rule_resource []));
   (permission_id sp, OCfn (permission_resource sp))].

(** ** Well-formed trees *)

(** Every construct but the root has its scope in the tree. *)
Definition wf (t : Tree) : Prop :=
  forall p o, In (p, o) t -> p = [] \/ find (removelast p) t <> None.

(** Nothing in the tree is at or below [sp]. *)
Definition fresh (sp : Path) (t : Tree) : Prop :=
  forall p o, In (p, o) t -> is_prefix sp p = false.

(** The constructs [l], given by their paths from [sp], placed below [sp]. *)
Definition under (sp : Path) (l : Tree) : Tree :=
  map (fun n => (sp ++ fst n, snd n)) l.

Arguments under : simpl never.
Arguments node_unique_id : simpl never.
Arguments String.append : simpl never.

(** * Properties *)

(** ** Paths and the store *)

Lemma path_eqb_refl (p : Path) : path_eqb p p = true.
Proof.
  induction p as [|a p IH]; simpl; [reflexivity|].
  now rewrite String.eqb_refl, IH.
Qed.

Lemma path_eqb_eq (p q : Path) : path_eqb p q = true <-> p = q.
Proof.
  split; [|intros ->; apply path_eqb_refl].
  revert q; induction p as [|a p IH]; intros [|b q]; simpl; try discriminate;
    [reflexivity|].
  intros H. apply andb_true_iff in H as [Hab Hpq].
  apply String.eqb_eq in Hab. apply IH in Hpq. now subst.
Qed.

Lemma path_eqb_neq (p q : Path) : path_eqb p q = false <-> p <> q.
Proof.
  split.
  - intros H E. apply path_eqb_eq in E. congruence.
  - intros H. destruct (path_eqb p q) eqn:E; [|reflexivity].
    apply path_eqb_eq in E. contradiction.
Qed.

Lemma path_eqb_app (sp p q : Path) :
  path_eqb (sp ++ p) (sp ++ q) = path_eqb p q.
Proof.
  induction sp as [|a sp IH]; simpl; [reflexivity|].
  now rewrite String.eqb_refl, IH.
Qed.

Lemma is_prefix_app (sp q : Path) : is_prefix sp (sp ++ q) = true.
Proof.
  induction sp as [|a sp IH]; simpl; [reflexivity|].
  now rewrite String.eqb_refl, IH.
Qed.

Lemma is_prefix_split (sp p : Path) :
  is_prefix sp p = true -> exists q, p = sp ++ q.
Proof.
  revert p; induction sp as [|a sp IH]; intros p H; simpl in *.
  - now exists p.
  - destruct p as [|b p]; [discriminate|].
    apply andb_true_iff in H as [Hab Hp].
    apply String.eqb_eq in Hab. destruct (IH _ Hp) as [q ->].
    exists q. now subst.
Qed.

Lemma logical_id_app (sp q : Path) : assertions.logical_id sp (sp ++ q) = q.
Proof.
  unfold assertions.logical_id.
  induction sp as [|a sp IH]; simpl; [reflexivity|exact IH].
Qed.

Lemma removelast_under (sp q : Path) :
  q <> [] -> removelast (sp ++ q) = sp ++ removelast q.
Proof. intros H. now apply removelast_app. Qed.

Lemma find_app (p : Path) (t l : Tree) :
  find p (t ++ l) =
  match find p t with
  | Some o => Some o
  | None => find p l
  end.
Proof.
  induction t as [|[q o] t IH]; simpl; [reflexivity|].
  destruct (path_eqb p q); [reflexivity|exact IH].
Qed.

Lemma find_Some_In (p : Path) (t : Tree) (o : Object) :
  find p t = Some o -> In (p, o) t.
Proof.
  induction t as [|[q o'] t IH]; simpl; [discriminate|].
  destruct (path_eqb p q) eqn:E.
  - intros [= ->]. apply path_eqb_eq in E. subst. now left.
  - intros H. right. now apply IH.
Qed.

Lemma In_find (p : Path) (t : Tree) (o : Object) :
  In (p, o) t -> find p t <> None.
Proof.
  induction t as [|[q o'] t IH]; simpl; [contradiction|].
  intros [[= -> ->]|H].
  - now rewrite path_eqb_refl.
  - destruct (path_eqb p q); [discriminate|now apply IH].
Qed.

Lemma find_replace_same (p : Path) (o : Object) (t : Tree) :
  find p t <> None -> find p (replace p o t) = Some o.
Proof.
  induction t as [|[q o'] t IH]; simpl; [congruence|].
  destruct (path_eqb p q) eqn:E; simpl; rewrite E; [reflexivity|exact IH].
Qed.

Lemma find_replace_other (p q : Path) (o : Object) (t : Tree) :
  q <> p -> find q (replace p o t) = find q t.
Proof.
  intros Hq. induction t as [|[r o'] t IH]; simpl; [reflexivity|].
  destruct (path_eqb p r) eqn:E; simpl.
  - apply path_eqb_eq in E. subst r.
    apply path_eqb_neq in Hq. now rewrite Hq.
  - now rewrite IH.
Qed.

Lemma replace_app (p : Path) (o : Object) (t l : Tree) :
  find p t = None -> replace p o (t ++ l) = t ++ replace p o l.
Proof.
  induction t as [|[q o'] t IH]; simpl; [reflexivity|].
  destruct (path_eqb p q); [discriminate|].
  intros H. now rewrite IH.
Qed.

(** ** A well-formed tree, and the part of it below a fresh construct *)

Lemma wf_App : wf core.App.
Proof. intros p o [[= <- <-]|[]]. now left. Qed.

Lemma wf_fresh (sp : Path) (t : Tree) :
  wf t -> find sp t = None -> fresh sp t.
Proof.
  intros Hwf Hsp.
  assert (H : forall q o, ~ In (sp ++ q, o) t).
  { intros q. induction q as [|a q IH] using rev_ind; intros o Hin.
    - rewrite app_nil_r in Hin. apply In_find in Hin. contradiction.
    - destruct (Hwf _ _ Hin) as [E|Hparent].
      + destruct sp; destruct q; discriminate.
      + rewrite app_assoc, removelast_last in Hparent.
        destruct (find (sp ++ q) t) as [o'|] eqn:E; [|contradiction].
        apply find_Some_In in E. exact (IH _ E). }
  intros p o Hin. destruct (is_prefix sp p) eqn:E; [|reflexivity].
  apply is_prefix_split in E as [q ->]. now apply H in Hin.
Qed.

Lemma fresh_find (sp q : Path) (t : Tree) :
  fresh sp t -> find (sp ++ q) t = None.
Proof.
  intros Hf. destruct (find (sp ++ q) t) as [o|] eqn:E; [|reflexivity].
  apply find_Some_In, Hf in E. now rewrite is_prefix_app in E.
Qed.

Lemma under_app (sp : Path) (l l' : Tree) :
  under sp (l ++ l') = under sp l ++ under sp l'.
Proof. apply map_app. Qed.

Lemma find_under (sp q : Path) (l : Tree) :
  find (sp ++ q) (under sp l) = find q l.
Proof.
  induction l as [|[r o] l IH]; simpl; [reflexivity|].
  now rewrite path_eqb_app, IH.
Qed.

Lemma find_below (sp q : Path) (t l : Tree) :
  fresh sp t -> find (sp ++ q) (t ++ under sp l) = find q l.
Proof.
  intros Hf. now rewrite find_app, fresh_find, find_under.
Qed.

Lemma find_below_root (sp : Path) (t l : Tree) :
  fresh sp t -> find sp (t ++ under sp l) = find [] l.
Proof.
  intros Hf. pose proof (find_below [] l Hf) as H.
  now rewrite app_nil_r in H.
Qed.

Lemma replace_under (sp q : Path) (o : Object) (l : Tree) :
  replace (sp ++ q) o (under sp l) = under sp (replace q o l).
Proof.
  induction l as [|[r o'] l IH]; simpl; [reflexivity|].
  rewrite path_eqb_app. destruct (path_eqb q r); simpl; [reflexivity|].
  now rewrite IH.
Qed.

Lemma replace_below (sp q : Path) (o : Object) (t l : Tree) :
  fresh sp t ->
  replace (sp ++ q) o (t ++ under sp l) = t ++ under sp (replace q o l).
Proof.
  intros Hf. rewrite replace_app by now apply fresh_find.
  now rewrite replace_under.
Qed.

(** ** Running construct code below a fresh construct *)

Lemma bind_Ok {A B} (c : M A) (k : A -> M B) fs t a t' r :
  c fs t = Ok (a, t') -> k a fs t' = r -> bind c k fs t = r.
Proof. unfold bind. now intros -> <-. Qed.

Lemma bind_Err {A B} (c : M A) (k : A -> M B) fs t e :
  c fs t = Err e -> bind c k fs t = Err e.
Proof. unfold bind. now intros ->. Qed.

Lemma Construct_below fs sp t0 l p q id o x :
  fresh sp t0 -> p = sp ++ q ->
  find q l = Some x -> find (q ++ [id]) l = None ->
  Construct p id o fs (t0 ++ under sp l)
  = Ok (sp ++ (q ++ [id]), t0 ++ under sp (l ++ [(q ++ [id], o)])).
Proof.
  intros Hf -> Hq Hnew. unfold Construct, bind, get_tree, put_tree, ret, raise.
  rewrite find_below, Hq by assumption.
  rewrite <- app_assoc, find_below, Hnew by assumption.
  rewrite under_app, (app_assoc t0). reflexivity.
Qed.

Lemma try_find_child_below fs sp t0 l p q id r :
  fresh sp t0 -> p = sp ++ q -> find (q ++ [id]) l = r ->
  try_find_child p id fs (t0 ++ under sp l) = Ok (r, t0 ++ under sp l).
Proof.
  intros Hf -> <-. unfold try_find_child, bind, get_tree, ret.
  now rewrite <- app_assoc, find_below.
Qed.

Lemma targets_of_below fs sp t0 l p q ts :
  fresh sp t0 -> p = sp ++ q -> find q l = Some (ORule ts) ->
  events.targets_of p fs (t0 ++ under sp l) = Ok (ts, t0 ++ under sp l).
Proof.
  intros Hf -> Hq. unfold events.targets_of, bind, get_tree, ret.
  now rewrite find_below, Hq.
Qed.

Lemma put_replace_below fs sp t0 l p q o t l' :
  fresh sp t0 -> p = sp ++ q -> replace q o l = l' ->
  put_tree (replace p o (t0 ++ under sp l)) fs t = Ok (tt, t0 ++ under sp l').
Proof.
  intros Hf -> <-. unfold put_tree. now rewrite replace_below.
Qed.


Ltac below_path := first [reflexivity | symmetry; apply app_nil_r].

Ltac run :=
  lazymatch goal with
  | |- bind _ _ _ _ = _ =>
      eapply bind_Ok; [run | cbv beta; simpl; try run]
  | |- Construct _ _ _ _ _ = _ =>
      eapply Construct_below;
      [eassumption | below_path | reflexivity | reflexivity]
  | |- try_find_child _ _ _ _ = _ =>
      eapply try_find_child_below; [eassumption | below_path | reflexivity]
  | |- events.targets_of _ _ _ = _ =>
      eapply targets_of_below; [eassumption | below_path | reflexivity]
  | |- put_tree (replace _ _ _) _ _ = _ =>
      eapply put_replace_below; [eassumption | below_path | reflexivity]
  | |- get_tree _ _ = _ => reflexivity
  | |- ask_fs _ _ = _ => reflexivity
  | |- match ?f ?p with Some _ => _ | None => _ end _ _ = _ =>
      match goal with
      | H : f p = _ |- _ => rewrite H; run
      end
  | |- ret _ _ _ = _ => reflexivity
  | |- lift _ _ _ = _ => reflexivity
  | |- _ => idtac
  end.

(** ** What the stack declares *)

Lemma Ec2AutoShutdownStack_run fs t0 scope id kw h x :
  wf t0 -> find scope t0 = Some x -> find (scope ++ [id]) t0 = None ->
  fs "ec2_auto_shutdown/lambda" = Some h ->
  Ec2AutoShutdownStack scope id kw fs t0
  = Ok (scope ++ [id],
        t0 ++ under (scope ++ [id])
                (stack_nodes (scope ++ [id]) kw h ["Target0"])).
Proof.
  intros Hwf Hscope Hnew Hfs.
  pose proof (wf_fresh _ Hwf Hnew) as Hf.
  remember (scope ++ [id]) as sp eqn:Hsp.
  unfold Ec2AutoShutdownStack, Stack.
  eapply bind_Ok.
  { unfold Construct, bind, get_tree, put_tree, ret.
    rewrite Hscope, <- Hsp, Hnew.
    replace [(sp, OStack kw)] with (under sp [([], OStack kw)])
      by (unfold under; simpl; now rewrite app_nil_r).
    reflexivity. }
  cbv beta.
  unfold _lambda.Function, iam.Role, _lambda.Code.bind_to, events.Rule,
    events.add_target, targets.LambdaFunction, targets.add_lambda_permission,
    _lambda.add_permission, shutdown_lambda_props.
  run.
  unfold _lambda.resource_of, events.resource_of.
  rewrite <- !app_assoc. reflexivity.
Qed.

Lemma Ec2AutoShutdownStack_no_scope fs t0 scope id kw :
  find scope t0 = None ->
  Ec2AutoShutdownStack scope id kw fs t0 = Err (NoSuchConstruct scope).
Proof.
  intros H. unfold Ec2AutoShutdownStack, Stack. apply bind_Err.
  unfold Construct, bind, get_tree, raise. now rewrite H.
Qed.

Lemma Ec2AutoShutdownStack_duplicate fs t0 scope id kw x y :
  find scope t0 = Some x -> find (scope ++ [id]) t0 = Some y ->
  Ec2AutoShutdownStack scope id kw fs t0 = Err (DuplicateConstruct scope id).
Proof.
  intros Hs Hd. unfold Ec2AutoShutdownStack, Stack. apply bind_Err.
  unfold Construct, bind, get_tree, raise. now rewrite Hs, Hd.
Qed.

Lemma Ec2AutoShutdownStack_no_asset fs t0 scope id kw x :
  wf t0 -> find scope t0 = Some x -> find (scope ++ [id]) t0 = None ->
  fs "ec2_auto_shutdown/lambda" = None ->
  Ec2AutoShutdownStack scope id kw fs t0
  = Err (AssetNotFound "ec2_auto_shutdown/lambda").
Proof.
  intros Hwf Hscope Hnew Hfs.
  pose proof (wf_fresh _ Hwf Hnew) as Hf.
  remember (scope ++ [id]) as sp eqn:Hsp.
  unfold Ec2AutoShutdownStack, Stack.
  eapply bind_Ok.
  { unfold Construct, bind, get_tree, put_tree, ret.
    rewrite Hscope, <- Hsp, Hnew.
    replace [(sp, OStack kw)] with (under sp [([], OStack kw)])
      by (unfold under; simpl; now rewrite app_nil_r).
    reflexivity. }
  cbv beta. eapply bind_Ok; [reflexivity|]. cbv beta.
  apply bind_Err.
  unfold _lambda.Function, iam.Role, shutdown_lambda_props.
  eapply bind_Ok; [run|]. cbv beta; simpl.
  eapply bind_Ok; [run|]. cbv beta; simpl.
  apply bind_Err. unfold _lambda.Code.bind_to, bind, ask_fs.
  now rewrite Hfs.
Qed.

(** ** Rendering the stack *)

Lemma validate_app (t l : Tree) :
  assertions.validate (t ++ l)
  = match assertions.validate t with
    | Ok _ => assertions.validate l
    | Err e => Err e
    end.
Proof.
  induction t as [|[p o] t IH]; simpl; [reflexivity|].
  destruct o as [| | | | |r]; try exact IH.
  destruct r as [| |s st ts|]; try exact IH.
  destruct s; [exact IH|reflexivity].
Qed.

Lemma validate_stack_nodes sp kw h ids :
  assertions.validate (under sp (stack_nodes sp kw h ids)) = Ok tt.
Proof. reflexivity. Qed.

Lemma render_fresh sp (T t0 : Tree) :
  fresh sp t0 -> flat_map (assertions.render_node sp T) t0 = [].
Proof.
  induction t0 as [|[p o] t0 IH]; intros Hf; simpl; [reflexivity|].
  rewrite IH by (intros q o' Hin; apply (Hf q o'); now right).
  destruct o; try reflexivity.
  now rewrite (Hf p (OCfn r)) by now left.
Qed.

Lemma registered_targets_below sp q (t0 l : Tree) :
  fresh sp t0 ->
  assertions.registered_targets (t0 ++ under sp l) (sp ++ q)
  = match find q l with
    | Some (ORule ts) => ts
    | _ => []
    end.
Proof.
  intros Hf. unfold assertions.registered_targets. now rewrite find_below.
Qed.

Lemma render_function_target sp id :
  assertions.render_target sp (function_target sp id) = function_target [] id.
Proof.
  unfold assertions.render_target, function_target; simpl.
  now rewrite logical_id_app.
Qed.

Lemma resources_below sp t0 kw h ids :
  fresh sp t0 ->
  assertions.resources sp (t0 ++ under sp (stack_nodes sp kw h ids))
  = Cfn.Resources (stack_template sp kw h ids).
Proof.
  intros Hf. unfold assertions.resources.
  rewrite flat_map_app, render_fresh by assumption.
  assert (HT : assertions.registered_targets
                 (t0 ++ under sp (stack_nodes sp kw h ids))
                 (sp ++ ["DailyShutdownRule"])
               = map (function_target sp) ids)
    by now rewrite registered_targets_below.
  remember (t0 ++ under sp (stack_nodes sp kw h ids)) as T eqn:ET.
  unfold under, stack_nodes, role_id, function_id, rule_id, permission_id;
    simpl.
  rewrite !is_prefix_app, !logical_id_app.
  rewrite (@removelast_under sp ["DailyShutdownRule"; "Resource"])
    by discriminate.
  simpl removelast. rewrite HT, map_map.
  rewrite (map_ext _ _ (render_function_target sp)).
  reflexivity.
Qed.

Lemma from_stack_below fs sp t0 kw h ids :
  fresh sp t0 ->
  assertions.Template.from_stack sp fs
    (t0 ++ under sp (stack_nodes sp kw h ids))
  = match assertions.validate t0 with
    | Ok _ => Ok (stack_template sp kw h ids,
                  t0 ++ under sp (stack_nodes sp kw h ids))
    | Err e => Err e
    end.
Proof.
  intros Hf. unfold assertions.Template.from_stack, bind, get_tree, lift, ret.
  rewrite validate_app, validate_stack_nodes.
  destruct (assertions.validate t0) as [[]|e]; [|reflexivity].
  rewrite find_below_root by assumption.
  simpl. now rewrite resources_below.
Qed.

(** ** Binding the function to the rule once more *)

Lemma find_permission sp kw h ids :
  find (["DailyShutdownRule"]
          ++ [permission_name (sp ++ ["Ec2AutoShutdownFunction"])])
       (stack_nodes sp kw h ids)
  = Some (OCfn (permission_resource sp)).
Proof.
  unfold stack_nodes, permission_id.
  assert (Hnm : String.eqb (permission_name (sp ++ ["Ec2AutoShutdownFunction"]))
                  "Resource" = false) by reflexivity.
  revert Hnm. generalize (permission_name (sp ++ ["Ec2AutoShutdownFunction"])).
  intros nm Hnm. simpl. now rewrite Hnm, String.eqb_refl.
Qed.

Lemma add_target_again fs sp t0 kw h ids :
  fresh sp t0 ->
  events.add_target (sp ++ ["DailyShutdownRule"])
    (targets.LambdaFunction (sp ++ ["Ec2AutoShutdownFunction"])) fs
    (t0 ++ under sp (stack_nodes sp kw h ids))
  = Ok (tt,
        t0 ++ under sp
                (stack_nodes sp kw h
                   (ids ++ [("Target" ++ events.string_of_nat (length ids))
                            %string]))).
Proof.
  intros Hf.
  unfold events.add_target, targets.LambdaFunction,
    targets.add_lambda_permission.
  eapply bind_Ok.
  { eapply targets_of_below; [eassumption|reflexivity|reflexivity]. }
  cbv beta. eapply bind_Ok.
  { cbn [events.bind_to_rule]. eapply bind_Ok.
    - eapply bind_Ok.
      + eapply try_find_child_below;
          [eassumption|reflexivity|apply find_permission].
      + reflexivity.
    - reflexivity. }
  cbv beta. eapply bind_Ok.
  { eapply targets_of_below; [eassumption|reflexivity|reflexivity]. }
  cbv beta. eapply bind_Ok; [reflexivity|]. cbv beta.
  eapply put_replace_below; [eassumption|reflexivity|].
  unfold stack_nodes. simpl. rewrite map_app, length_map.
  unfold _lambda.resource_of. rewrite <- app_assoc. reflexivity.
Qed.

(** ** Synthesis, characterised *)

Lemma synth_in_spec fs t0 scope id kw :
  wf t0 ->
  synth_in fs t0 scope id kw
  = match find scope t0 with
    | None => Err (NoSuchConstruct scope)
    | Some _ =>
        match find (scope ++ [id]) t0 with
        | Some _ => Err (DuplicateConstruct scope id)
        | None =>
            match fs "ec2_auto_shutdown/lambda" with
            | None => Err (AssetNotFound "ec2_auto_shutdown/lambda")
            | Some h =>
                match assertions.validate t0 with
                | Ok _ => Ok (stack_template (scope ++ [id]) kw h ["Target0"])
                | Err e => Err e
                end
            end
        end
    end.
Proof.
  intros Hwf. unfold synth_in, bind.
  destruct (find scope t0) as [x|] eqn:Hs;
    [|now erewrite Ec2AutoShutdownStack_no_scope by eassumption].
  destruct (find (scope ++ [id]) t0) as [y|] eqn:Hn;
    [now erewrite Ec2AutoShutdownStack_duplicate by eassumption|].
  destruct (fs "ec2_auto_shutdown/lambda") as [h|] eqn:Hfs;
    [|now erewrite Ec2AutoShutdownStack_no_asset by eassumption].
  erewrite Ec2AutoShutdownStack_run by eassumption.
  rewrite from_stack_below by now apply wf_fresh.
  now destruct (assertions.validate t0) as [[]|e].
Qed.

Lemma synth_spec fs id kw :
  synth fs id kw
  = match fs "ec2_auto_shutdown/lambda" with
    | None => Err (AssetNotFound "ec2_auto_shutdown/lambda")
    | Some h => Ok (stack_template [id] kw h ["Target0"])
    end.
Proof.
  unfold synth. rewrite synth_in_spec by apply wf_App. reflexivity.
Qed.

Lemma synth_rebound_spec fs id kw :
  synth_rebound fs id kw
  = match fs "ec2_auto_shutdown/lambda" with
    | None => Err (AssetNotFound "ec2_auto_shutdown/lambda")
    | Some h => Ok (stack_template [id] kw h ["Target0"; "Target1"])
    end.
Proof.
  assert (Hf : fresh [id] core.App) by now apply wf_fresh; [apply wf_App|].
  unfold synth_rebound, bind.
  destruct (fs "ec2_auto_shutdown/lambda") as [h|] eqn:Hfs.
  - erewrite Ec2AutoShutdownStack_run
      by first [apply wf_App | eassumption | reflexivity].
    change ([] ++ [id]) with [id].
    erewrite add_target_again by assumption.
    rewrite from_stack_below by assumption. reflexivity.
  - now erewrite Ec2AutoShutdownStack_no_asset
      by first [apply wf_App | eassumption | reflexivity].
Qed.

Lemma synth_Ok fs id kw tpl :
  synth fs id kw = Ok tpl ->
  exists h, fs "ec2_auto_shutdown/lambda" = Some h
            /\ tpl = stack_template [id] kw h ["Target0"].
Proof.
  rewrite synth_spec.
  destruct (fs "ec2_auto_shutdown/lambda") as [h|]; [|discriminate].
  intros [= <-]. now exists h.
Qed.

Lemma synth_rebound_Ok fs id kw tpl :
  synth_rebound fs id kw = Ok tpl ->
  exists h, fs "ec2_auto_shutdown/lambda" = Some h
            /\ tpl = stack_template [id] kw h ["Target0"; "Target1"].
Proof.
  rewrite synth_rebound_spec.
  destruct (fs "ec2_auto_shutdown/lambda") as [h|]; [|discriminate].
  intros [= <-]. now exists h.
Qed.

Lemma stack_template_other_resources sp kw h ids :
  ~ only_function_and_rule (stack_template sp kw h ids).
Proof.
  intros H. destruct (H role_id role_resource) as [E|E];
    [now left|discriminate E|discriminate E].
Qed.

(** ** [add_target] on any tree *)

Lemma path_neq_child (p : Path) (a : string) : p ++ [a] <> p.
Proof.
  intros E. apply (f_equal (@length string)) in E.
  rewrite length_app in E. simpl in E. lia.
Qed.

Lemma add_target_LambdaFunction fs t rule fn ts :
  find rule t = Some (ORule ts) ->
  exists t',
    events.add_target rule (targets.LambdaFunction fn) fs t = Ok (tt, t')
    /\ find rule t'
       = Some (ORule (ts ++ [ {| Cfn.Arn := _lambda.resource_of fn;
                                 Cfn.Id := ("Target"
                                   ++ events.string_of_nat (length ts))%string
                              |} ]))
    /\ find (rule ++ [permission_name fn]) t'
       = Some (match find (rule ++ [permission_name fn]) t with
               | Some o => o
               | None =>
                   OCfn (Cfn.Lambda_Permission "lambda:InvokeFunction"
                           (_lambda.resource_of fn) "events.amazonaws.com"
                           (events.resource_of rule))
               end)
    /\ forall p, p <> rule -> p <> rule ++ [permission_name fn] ->
                 find p t' = find p t.
Proof.
  intros Hr.
  unfold events.add_target, targets.LambdaFunction,
    targets.add_lambda_permission, try_find_child, events.targets_of,
    _lambda.add_permission, Construct, bind, get_tree, put_tree, ret, raise.
  cbn [events.bind_to_rule events.arn events.id events.fallback].
  fold (permission_name fn). rewrite Hr.
  destruct (find (rule ++ [permission_name fn]) t) as [o|] eqn:Hp.
  - rewrite Hr. eexists; split; [reflexivity|]. repeat split.
    + apply find_replace_same. congruence.
    + rewrite find_replace_other by apply path_neq_child. exact Hp.
    + intros p Hp1 _. now apply find_replace_other.
  - rewrite Hr, Hp, find_app, Hr. eexists; split; [reflexivity|].
    repeat split.
    + apply find_replace_same. rewrite find_app, Hr. discriminate.
    + rewrite find_replace_other by apply path_neq_child.
      rewrite find_app, Hp. simpl. now rewrite path_eqb_refl.
    + intros p Hp1 Hp2. rewrite find_replace_other by assumption.
      rewrite find_app. destruct (find p t); [reflexivity|].
      simpl. apply path_eqb_neq in Hp2. now rewrite Hp2.
Qed.

(** * The claims *)

(** C1.  The rule is declared with the cron options minute "0" and hour
    "18" and no other field; the library renders them as the six-field
    expression with minute 0, hour 18, every day of the month, every month,
    no specific day of the week and every year, and that expression is the
    schedule of the one rule of every synthesized template (whatever the
    keyword arguments of the stack, the default ones included). *)
Theorem C1_schedule_expression fs id kw tpl :
  synth fs id kw = Ok tpl ->
  rule_cron_options
  = {| events.minute := Some "0"; events.hour := Some "18";
       events.day := None; events.month := None;
       events.week_day := None; events.year := None |}
  /\ events.Schedule.cron rule_cron_options
     = Ok {| events.expression_string := "cron(0 18 * * ? *)" |}
  /\ schedule_expressions tpl = [Some "cron(0 18 * * ? *)"].
Proof.
  intros H. apply synth_Ok in H as (h & _ & ->).
  repeat split.
Qed.

Lemma C1_schedule_expression_witness :
  synth repo_fs "ec2-auto-shutdown" no_kwargs
  = Ok (stack_template ["ec2-auto-shutdown"] no_kwargs "asset0" ["Target0"])
  /\ schedule_expressions
       (stack_template ["ec2-auto-shutdown"] no_kwargs "asset0" ["Target0"])
     = [Some "cron(0 18 * * ? *)"].
Proof.
  split; [reflexivity|].
  apply (C1_schedule_expression repo_fs "ec2-auto-shutdown" no_kwargs).
  reflexivity.
Defined.

(** C2.  The function is declared with [Duration.seconds(60)], which is 60
    seconds; in every synthesized template the one function has
    [Timeout = 60], and that is the only limit any resource of the template
    declares. *)
Theorem C2_timeout_only_limit fs id kw tpl :
  synth fs id kw = Ok tpl ->
  (exists d, Duration.seconds 60 = Ok d /\ Duration.to_seconds d = 60%Z)
  /\ map Cfn.Timeout (function_properties tpl) = [Some 60%Z]
  /\ resource_limits tpl = [(function_id, ("Timeout", 60%Z))].
Proof.
  intros H. apply synth_Ok in H as (h & _ & ->).
  split; [eexists; split; reflexivity|]. split; reflexivity.
Qed.

Lemma C2_timeout_only_limit_witness :
  synth repo_fs "ec2-auto-shutdown" no_kwargs
  = Ok (stack_template ["ec2-auto-shutdown"] no_kwargs "asset0" ["Target0"])
  /\ resource_limits
       (stack_template ["ec2-auto-shutdown"] no_kwargs "asset0" ["Target0"])
     = [(function_id, ("Timeout", 60%Z))].
Proof.
  split; [reflexivity|].
  apply (C2_timeout_only_limit repo_fs "ec2-auto-shutdown" no_kwargs).
  reflexivity.
Defined.

(** C3.  Every synthesized template holds exactly one function resource and
    exactly one schedule rule. *)
Theorem C3_one_function_one_rule fs id kw tpl :
  synth fs id kw = Ok tpl ->
  length (resources_of_type "AWS::Lambda::Function" tpl) = 1
  /\ length (resources_of_type "AWS::Events::Rule" tpl) = 1.
Proof.
  intros H. apply synth_Ok in H as (h & _ & ->). split; reflexivity.
Qed.

Lemma C3_one_function_one_rule_witness :
  synth repo_fs "ec2-auto-shutdown" no_kwargs
  = Ok (stack_template ["ec2-auto-shutdown"] no_kwargs "asset0" ["Target0"])
  /\ length (resources_of_type "AWS::Lambda::Function"
               (stack_template ["ec2-auto-shutdown"] no_kwargs "asset0"
                  ["Target0"])) = 1
  /\ length (resources_of_type "AWS::Events::Rule"
               (stack_template ["ec2-auto-shutdown"] no_kwargs "asset0"
                  ["Target0"])) = 1.
Proof.
  split; [reflexivity|].
  apply (C3_one_function_one_rule repo_fs "ec2-auto-shutdown" no_kwargs).
  reflexivity.
Defined.

(** C4.  In every synthesized template the one rule has exactly one target,
    and the resource that target refers to is the one function resource of
    the same template. *)
Theorem C4_single_target_is_function fs id kw tpl :
  synth fs id kw = Ok tpl ->
  exists tg props deps,
    rule_targets tpl = [[tg]]
    /\ lookup (Cfn.Arn tg) (Cfn.Resources tpl)
       = Some (Cfn.Lambda_Function props deps)
    /\ resources_of_type "AWS::Lambda::Function" tpl
       = [(Cfn.Arn tg, Cfn.Lambda_Function props deps)].
Proof.
  intros H. apply synth_Ok in H as (h & _ & ->).
  eexists _, _, _. repeat split.
Qed.

Lemma C4_single_target_is_function_witness :
  synth repo_fs "ec2-auto-shutdown" no_kwargs
  = Ok (stack_template ["ec2-auto-shutdown"] no_kwargs "asset0" ["Target0"])
  /\ exists tg props deps,
       rule_targets
         (stack_template ["ec2-auto-shutdown"] no_kwargs "asset0" ["Target0"])
       = [[tg]]
       /\ lookup (Cfn.Arn tg)
            (Cfn.Resources
               (stack_template ["ec2-auto-shutdown"] no_kwargs "asset0"
                  ["Target0"]))
          = Some (Cfn.Lambda_Function props deps)
       /\ resources_of_type "AWS::Lambda::Function"
            (stack_template ["ec2-auto-shutdown"] no_kwargs "asset0"
               ["Target0"])
          = [(Cfn.Arn tg, Cfn.Lambda_Function props deps)].
Proof.
  split; [reflexivity|].
  apply (C4_single_target_is_function repo_fs "ec2-auto-shutdown" no_kwargs).
  reflexivity.
Defined.

(** C5, as stated: the template holds one rule and one function and no
    other resource.  It fails on the repository's own deployment: the
    template also holds resources that are neither. *)
Lemma C5_other_resources_created :
  exists tpl,
    synth repo_fs "ec2-auto-shutdown" no_kwargs = Ok tpl
    /\ ~ only_function_and_rule tpl.
Proof.
  exists (stack_template ["ec2-auto-shutdown"] no_kwargs "asset0" ["Target0"]).
  split; [reflexivity|]. apply stack_template_other_resources.
Qed.

(** C5, amended.  Every synthesized template holds one rule with the
    schedule of C1 and one function with a timeout of 60 seconds, the rule's
    only target being that function; besides these two it holds exactly two
    more resources, the function's execution role and the permission that
    lets the scheduler invoke the function. *)
Theorem C5_template_resources fs id kw tpl :
  synth fs id kw = Ok tpl ->
  schedule_expressions tpl = [Some "cron(0 18 * * ? *)"]
  /\ map Cfn.Timeout (function_properties tpl) = [Some 60%Z]
  /\ rule_targets tpl = [[ {| Cfn.Arn := function_id; Cfn.Id := "Target0" |} ]]
  /\ map fst (resources_of_type "AWS::Lambda::Function" tpl) = [function_id]
  /\ map (fun r => Cfn.type_of (snd r)) (Cfn.Resources tpl)
     = ["AWS::IAM::Role"; "AWS::Lambda::Function"; "AWS::Events::Rule";
        "AWS::Lambda::Permission"].
Proof.
  intros H. apply synth_Ok in H as (h & _ & ->). repeat split.
Qed.

Lemma C5_template_resources_witness :
  synth repo_fs "ec2-auto-shutdown" no_kwargs
  = Ok (stack_template ["ec2-auto-shutdown"] no_kwargs "asset0" ["Target0"])
  /\ map (fun r => Cfn.type_of (snd r))
       (Cfn.Resources
          (stack_template ["ec2-auto-shutdown"] no_kwargs "asset0"
             ["Target0"]))
     = ["AWS::IAM::Role"; "AWS::Lambda::Function"; "AWS::Events::Rule";
        "AWS::Lambda::Permission"].
Proof.
  split; [reflexivity|].
  apply (C5_template_resources repo_fs "ec2-auto-shutdown" no_kwargs).
  reflexivity.
Defined.

(** C6.  Two syntheses of the stack with the same inputs (the scope's path,
    the construct id, the keyword arguments and the content of the asset
    directory) yield the same template, whatever else the two construct
    trees hold. *)
Theorem C6_synthesis_deterministic fs fs' t0 t0' scope id kw tpl tpl' :
  wf t0 -> wf t0' ->
  fs "ec2_auto_shutdown/lambda" = fs' "ec2_auto_shutdown/lambda" ->
  synth_in fs t0 scope id kw = Ok tpl ->
  synth_in fs' t0' scope id kw = Ok tpl' ->
  tpl = tpl'.
Proof.
  intros Hwf Hwf' Hfs H H'.
  rewrite synth_in_spec in H, H' by assumption. rewrite <- Hfs in H'.
  destruct (find scope t0); [|discriminate].
  destruct (find (scope ++ [id]) t0); [discriminate|].
  destruct (find scope t0'); [|discriminate].
  destruct (find (scope ++ [id]) t0'); [discriminate|].
  destruct (fs "ec2_auto_shutdown/lambda"); [|discriminate].
  destruct (assertions.validate t0); [|discriminate].
  destruct (assertions.validate t0'); [|discriminate].
  congruence.
Qed.

Lemma C6_synthesis_deterministic_witness :
  wf core.App
  /\ wf (core.App ++ [(["another-stack"], OStack no_kwargs)])
  /\ synth_in repo_fs core.App [] "ec2-auto-shutdown" no_kwargs
     = Ok (stack_template ["ec2-auto-shutdown"] no_kwargs "asset0" ["Target0"])
  /\ synth_in repo_fs (core.App ++ [(["another-stack"], OStack no_kwargs)])
       [] "ec2-auto-shutdown" no_kwargs
     = Ok (stack_template ["ec2-auto-shutdown"] no_kwargs "asset0" ["Target0"])
  /\ stack_template ["ec2-auto-shutdown"] no_kwargs "asset0" ["Target0"]
     = stack_template ["ec2-auto-shutdown"] no_kwargs "asset0" ["Target0"].
Proof.
  assert (Hwf : wf (core.App ++ [(["another-stack"], OStack no_kwargs)])).
  { intros p o [E|[E|[]]]; injection E as <- <-; [now left|].
    right. discriminate. }
  split; [apply wf_App|]. split; [exact Hwf|].
  split; [reflexivity|]. split; [reflexivity|].
  apply (@C6_synthesis_deterministic repo_fs repo_fs core.App
           (core.App ++ [(["another-stack"], OStack no_kwargs)])
           [] "ec2-auto-shutdown" no_kwargs);
    [apply wf_App|exact Hwf|reflexivity|reflexivity|reflexivity].
Defined.

(** C7, as stated: declaring the binding again yields the same deployed
    state.  It fails: on the repository's own deployment the template
    rendered after a second [add_target] for the same function differs from
    the one rendered after the first. *)
Lemma C7_rebinding_changes_template :
  exists tpl tpl',
    synth repo_fs "ec2-auto-shutdown" no_kwargs = Ok tpl
    /\ synth_rebound repo_fs "ec2-auto-shutdown" no_kwargs = Ok tpl'
    /\ tpl' <> tpl.
Proof.
  exists (stack_template ["ec2-auto-shutdown"] no_kwargs "asset0" ["Target0"]),
    (stack_template ["ec2-auto-shutdown"] no_kwargs "asset0"
       ["Target0"; "Target1"]).
  split; [reflexivity|]. split; [reflexivity|].
  intros E. apply (f_equal rule_targets) in E. discriminate E.
Qed.

(** C7, amended.  Each [add_target] for a function appends one more target
    to the rule, under the next generated id, and declares the invoke
    permission under the rule only if it is not there yet: a second call for
    the same function leaves the rule with one target more and changes
    nothing else in the tree.  For the stack, the template rendered after a
    second binding differs from the first in the rule's targets alone,
    which are then [Target0] and [Target1], both for the function. *)
Theorem C7_add_target_appends fs t rule fn ts :
  find rule t = Some (ORule ts) ->
  let tg n := {| Cfn.Arn := _lambda.resource_of fn;
                 Cfn.Id := ("Target" ++ events.string_of_nat n)%string |} in
  (exists t1 t2,
     events.add_target rule (targets.LambdaFunction fn) fs t = Ok (tt, t1)
     /\ events.add_target rule (targets.LambdaFunction fn) fs t1 = Ok (tt, t2)
     /\ find rule t1 = Some (ORule (ts ++ [tg (length ts)]))
     /\ find rule t2
        = Some (ORule (ts ++ [tg (length ts); tg (S (length ts))]))
     /\ forall p, p <> rule -> find p t2 = find p t1)
  /\ (forall id kw tpl tpl',
        synth fs id kw = Ok tpl -> synth_rebound fs id kw = Ok tpl' ->
        exists h,
          tpl = stack_template [id] kw h ["Target0"]
          /\ tpl' = stack_template [id] kw h ["Target0"; "Target1"]).
Proof.
  intros Hr tg. split.
  - destruct (@add_target_LambdaFunction fs t rule fn _ Hr)
      as (t1 & Hrun1 & Hr1 & Hp1 & _).
    destruct (@add_target_LambdaFunction fs t1 rule fn _ Hr1)
      as (t2 & Hrun2 & Hr2 & Hp2 & Hother).
    exists t1, t2. repeat split; try assumption.
    + rewrite Hr2, <- app_assoc, length_app. simpl.
      now rewrite Nat.add_1_r.
    + intros p Hp.
      destruct (path_eqb p (rule ++ [permission_name fn])) eqn:E.
      * apply path_eqb_eq in E. subst p. now rewrite Hp2, Hp1.
      * apply path_eqb_neq in E. now apply Hother.
  - intros id kw tpl tpl' H H'.
    apply synth_Ok in H as (h & Hfs & ->).
    apply synth_rebound_Ok in H' as (h' & Hfs' & ->).
    exists h. split; [reflexivity|]. congruence.
Qed.

Lemma C7_add_target_appends_witness :
  find ["s"; "DailyShutdownRule"]
    (core.App ++ under ["s"] (stack_nodes ["s"] no_kwargs "asset0" []))
  = Some (ORule [])
  /\ exists t1 t2,
       events.add_target ["s"; "DailyShutdownRule"]
         (targets.LambdaFunction ["s"; "Ec2AutoShutdownFunction"]) repo_fs
         (core.App ++ under ["s"] (stack_nodes ["s"] no_kwargs "asset0" []))
       = Ok (tt, t1)
       /\ events.add_target ["s"; "DailyShutdownRule"]
            (targets.LambdaFunction ["s"; "Ec2AutoShutdownFunction"]) repo_fs
            t1
          = Ok (tt, t2)
       /\ find ["s"; "DailyShutdownRule"] t2
          = Some (ORule
                    [ {| Cfn.Arn := ["s"; "Ec2AutoShutdownFunction"; "Resource"];
                         Cfn.Id := "Target0" |};
                      {| Cfn.Arn := ["s"; "Ec2AutoShutdownFunction"; "Resource"];
                         Cfn.Id := "Target1" |} ]).
Proof.
  split; [reflexivity|].
  destruct (@C7_add_target_appends repo_fs
              (core.App
                 ++ under ["s"] (stack_nodes ["s"] no_kwargs "asset0" []))
              ["s"; "DailyShutdownRule"] ["s"; "Ec2AutoShutdownFunction"] []
              eq_refl) as [(t1 & t2 & H1 & H2 & _ & Hr2 & _) _].
  exists t1, t2. split; [exact H1|]. split; [exact H2|exact Hr2].
Defined.

(** C8.  The test passes exactly when instantiating the stack in a new
    application and rendering its template raise no error; the template is
    not inspected: with any stack class in place of the imported one, the
    test body passes exactly when construction and rendering succeed,
    whatever template they yield. *)
Theorem C8_test_checks_synthesis_only fs :
  (test_sqs_queue_created fs = Ok tt
   <-> exists tpl, synth fs "ec2-auto-shutdown" no_kwargs = Ok tpl)
  /\ (forall stack_class,
        run_test (test_body stack_class) fs = Ok tt
        <-> exists stack t1 tpl t2,
              stack_class [] "ec2-auto-shutdown" no_kwargs fs core.App
              = Ok (stack, t1)
              /\ assertions.Template.from_stack stack fs t1 = Ok (tpl, t2)).
Proof.
  assert (Hgen : forall stack_class,
             run_test (test_body stack_class) fs = Ok tt
             <-> exists stack t1 tpl t2,
                   stack_class [] "ec2-auto-shutdown" no_kwargs fs core.App
                   = Ok (stack, t1)
                   /\ assertions.Template.from_stack stack fs t1
                      = Ok (tpl, t2)).
  { intros stack_class. unfold run_test, test_body, bind, ret.
    destruct (stack_class [] "ec2-auto-shutdown" no_kwargs fs core.App)
      as [[stack t1]|e] eqn:Hc.
    - destruct (assertions.Template.from_stack stack fs t1)
        as [[tpl t2]|e] eqn:Hr.
      + split; [intros _; now exists stack, t1, tpl, t2|reflexivity].
      + split; [discriminate|].
        intros (s & t & tpl & t2 & [= <- <-] & H). congruence.
    - split; [discriminate|]. intros (s & t & tpl & t2 & H & _).
      discriminate H. }
  split; [|exact Hgen].
  unfold test_sqs_queue_created. rewrite Hgen.
  unfold synth, synth_in, bind. split.
  - intros (stack & t1 & tpl & t2 & -> & ->). now exists tpl.
  - intros (tpl & H).
    destruct (Ec2AutoShutdownStack [] "ec2-auto-shutdown" no_kwargs fs
                core.App) as [[stack t1]|e]; [|discriminate].
    destruct (assertions.Template.from_stack stack fs t1)
      as [[tpl' t2]|e] eqn:Hr; [|discriminate].
    now exists stack, t1, tpl', t2.
Qed.

(** C9.  The function is declared with the runtime Python 3.13, the handler
    "handler.lambda_handler" and the code of the directory
    "ec2_auto_shutdown/lambda": these are the keyword arguments of the
    declaration, and in every synthesized template the one function has that
    runtime and handler and the archive staged from that directory as its
    code. *)
Theorem C9_function_configuration fs id kw tpl :
  synth fs id kw = Ok tpl ->
  (forall d,
     _lambda.runtime (shutdown_lambda_props d) = _lambda.PYTHON_3_13
     /\ _lambda.handler (shutdown_lambda_props d) = "handler.lambda_handler"
     /\ _lambda.code (shutdown_lambda_props d)
        = _lambda.Code.from_asset "ec2_auto_shutdown/lambda")
  /\ exists h props,
       fs "ec2_auto_shutdown/lambda" = Some h
       /\ function_properties tpl = [props]
       /\ Cfn.Runtime props = "python3.13"
       /\ Cfn.Handler props = "handler.lambda_handler"
       /\ Cfn.Code_S3Key props = (h ++ ".zip")%string.
Proof.
  intros H. apply synth_Ok in H as (h & Hfs & ->).
  split; [intros d; repeat split|].
  eexists h, _. split; [exact Hfs|]. repeat split.
Qed.

Lemma C9_function_configuration_witness :
  synth repo_fs "ec2-auto-shutdown" no_kwargs
  = Ok (stack_template ["ec2-auto-shutdown"] no_kwargs "asset0" ["Target0"])
  /\ exists h props,
       repo_fs "ec2_auto_shutdown/lambda" = Some h
       /\ function_properties
            (stack_template ["ec2-auto-shutdown"] no_kwargs "asset0"
               ["Target0"]) = [props]
       /\ Cfn.Runtime props = "python3.13"
       /\ Cfn.Handler props = "handler.lambda_handler"
       /\ Cfn.Code_S3Key props = (h ++ ".zip")%string.
Proof.
  split; [reflexivity|].
  apply (C9_function_configuration repo_fs "ec2-auto-shutdown" no_kwargs).
  reflexivity.
Defined.

(** C10.  Every synthesized template holds, besides the function and the
    rule, a permission that lets the events service invoke the function for
    the rule, and the execution role the function runs under; so it does not
    hold functions and rules only.  The permission comes from the binding:
    [add_target] for a function on a rule that has no permission for it yet
    declares it under the rule. *)
Theorem C10_permission_and_role fs id kw tpl :
  synth fs id kw = Ok tpl ->
  resources_of_type "AWS::Lambda::Permission" tpl
  = [(permission_id [id],
      Cfn.Lambda_Permission "lambda:InvokeFunction" function_id
        "events.amazonaws.com" rule_id)]
  /\ resources_of_type "AWS::IAM::Role" tpl
     = [(role_id,
         Cfn.IAM_Role "lambda.amazonaws.com"
           ["service-role/AWSLambdaBasicExecutionRole"])]
  /\ map Cfn.Role (function_properties tpl) = [role_id]
  /\ length (Cfn.Resources tpl) = 4
  /\ ~ only_function_and_rule tpl
  /\ (forall t rule fn ts,
        find rule t = Some (ORule ts) ->
        find (rule ++ [permission_name fn]) t = None ->
        exists t',
          events.add_target rule (targets.LambdaFunction fn) fs t
          = Ok (tt, t')
          /\ find (rule ++ [permission_name fn]) t'
             = Some (OCfn (Cfn.Lambda_Permission "lambda:InvokeFunction"
                             (_lambda.resource_of fn) "events.amazonaws.com"
                             (events.resource_of rule)))).
Proof.
  intros H. apply synth_Ok in H as (h & _ & ->).
  do 4 (split; [reflexivity|]).
  split; [apply stack_template_other_resources|].
  intros t rule fn ts Hr Hp.
  destruct (@add_target_LambdaFunction fs t rule fn _ Hr)
    as (t' & Hrun & _ & Hperm & _).
  exists t'. split; [exact Hrun|]. now rewrite Hperm, Hp.
Qed.

Lemma C10_permission_and_role_witness :
  synth repo_fs "ec2-auto-shutdown" no_kwargs
  = Ok (stack_template ["ec2-auto-shutdown"] no_kwargs "asset0" ["Target0"])
  /\ length (Cfn.Resources
               (stack_template ["ec2-auto-shutdown"] no_kwargs "asset0"
                  ["Target0"])) = 4.
Proof.
  split; [reflexivity|].
  apply (C10_permission_and_role repo_fs "ec2-auto-shutdown" no_kwargs).
  reflexivity.
Defined.

(** * Further properties of the stack and of its test *)

(** ** The constructor on any tree *)

Lemma find_app_l (p : Path) (t l : Tree) (o : Object) :
  find p t = Some o -> find p (t ++ l) = Some o.
Proof. intros H. now rewrite find_app, H. Qed.





Lemma fresh_app (sp : Path) (a b : Tree) :
  fresh sp a -> fresh sp b -> fresh sp (a ++ b).
Proof.
  intros Ha Hb p o Hin. apply in_app_or in Hin as [H|H]; eauto.
Qed.




Lemma Ec2AutoShutdownStack_Ok fs t0 scope id kw stack t1 :
  wf t0 ->
  Ec2AutoShutdownStack scope id kw fs t0 = Ok (stack, t1) ->
  exists x h,
    find scope t0 = Some x /\ find (scope ++ [id]) t0 = None
    /\ fs "ec2_auto_shutdown/lambda" = Some h
    /\ stack = scope ++ [id]
    /\ t1 = t0 ++ under stack (stack_nodes stack kw h ["Target0"]).
Proof.
  intros Hwf H.
  destruct (find scope t0) as [x|] eqn:Hs;
    [|erewrite Ec2AutoShutdownStack_no_scope in H by eassumption;
      discriminate].
  destruct (find (scope ++ [id]) t0) as [y|] eqn:Hn;
    [erewrite Ec2AutoShutdownStack_duplicate in H by eassumption;
     discriminate|].
  destruct (fs "ec2_auto_shutdown/lambda") as [h|] eqn:Hfs;
    [|erewrite Ec2AutoShutdownStack_no_asset in H by eassumption;
      discriminate].
  erewrite Ec2AutoShutdownStack_run in H by eassumption.
  injection H as <- <-. now exists x, h.
Qed.



(** ** Stacks side by side *)



Lemma synth_in_Ok fs t0 scope id kw tpl :
  wf t0 ->
  synth_in fs t0 scope id kw = Ok tpl ->
  exists x h,
    find scope t0 = Some x /\ find (scope ++ [id]) t0 = None
    /\ fs "ec2_auto_shutdown/lambda" = Some h
    /\ assertions.validate t0 = Ok tt
    /\ tpl = stack_template (scope ++ [id]) kw h ["Target0"].
Proof.
  intros Hwf H. rewrite synth_in_spec in H by assumption.
  destruct (find scope t0) as [x|]; [|discriminate].
  destruct (find (scope ++ [id]) t0); [discriminate|].
  destruct (fs "ec2_auto_shutdown/lambda") as [h|]; [|discriminate].
  destruct (assertions.validate t0) as [[]|]; [|discriminate].
  injection H as <-. now exists x, h.
Qed.



(** X4.  A construct id can be used once per scope: after the constructor
    has succeeded, calling it again with the same scope and id raises the
    duplicate-construct error, whatever the keyword arguments of the second
    call. *)
Theorem X4_same_id_twice fs t0 scope id kw kw' stack t1 :
  wf t0 ->
  Ec2AutoShutdownStack scope id kw fs t0 = Ok (stack, t1) ->
  Ec2AutoShutdownStack scope id kw' fs t1 = Err (DuplicateConstruct scope id).
Proof.
  intros Hwf H.
  apply Ec2AutoShutdownStack_Ok in H as (x & h & Hs & Hn & Hfs & -> & ->);
    [|assumption].
  apply Ec2AutoShutdownStack_duplicate with (x := x) (y := OStack kw).
  - now apply find_app_l.
  - rewrite find_below_root by now apply wf_fresh. reflexivity.
Qed.

Lemma X4_same_id_twice_witness :
  wf core.App
  /\ Ec2AutoShutdownStack [] "ec2-auto-shutdown" no_kwargs repo_fs core.App
     = Ok (["ec2-auto-shutdown"],
           core.App
             ++ under ["ec2-auto-shutdown"]
                  (stack_nodes ["ec2-auto-shutdown"] no_kwargs "asset0"
                     ["Target0"]))
  /\ Ec2AutoShutdownStack [] "ec2-auto-shutdown" no_kwargs repo_fs
       (core.App
          ++ under ["ec2-auto-shutdown"]
               (stack_nodes ["ec2-auto-shutdown"] no_kwargs "asset0"
                  ["Target0"]))
     = Err (DuplicateConstruct [] "ec2-auto-shutdown").
Proof.
  assert (H : Ec2AutoShutdownStack [] "ec2-auto-shutdown" no_kwargs repo_fs
                core.App
              = Ok (["ec2-auto-shutdown"],
                    core.App
                      ++ under ["ec2-auto-shutdown"]
                           (stack_nodes ["ec2-auto-shutdown"] no_kwargs
                              "asset0" ["Target0"]))) by reflexivity.
  split; [apply wf_App|]. split; [exact H|].
  exact (@X4_same_id_twice repo_fs core.App [] "ec2-auto-shutdown" no_kwargs
           no_kwargs _ _ wf_App H).
Defined.

(** ** Keyword arguments, references and the test *)



(** X6.  Every synthesized template is well-formed as a template: no two of
    its resources have the same logical id, and every reference a resource
    makes (the function to its role, the rule's target to the function, the
    permission to the function and to the rule) is to a resource of the
    same template. *)
Theorem X6_template_ids_and_references fs t0 scope id kw tpl :
  wf t0 ->
  synth_in fs t0 scope id kw = Ok tpl ->
  NoDup (map fst (Cfn.Resources tpl)) /\ closed tpl.
Proof.
  intros Hwf H.
  apply synth_in_Ok in H as (x & h & _ & _ & _ & _ & ->); [|assumption].
  split.
  - simpl. unfold permission_id.
    repeat constructor; simpl; intuition discriminate.
  - intros lid r ref Hin Href. simpl in Hin.
    repeat (destruct Hin as [Hin|Hin];
            [injection Hin as <- <-; simpl in Href;
             repeat (destruct Href as [<-|Href]; [discriminate|]);
             destruct Href|]).
    destruct Hin.
Qed.

Lemma X6_template_ids_and_references_witness :
  wf core.App
  /\ synth_in repo_fs core.App [] "ec2-auto-shutdown" no_kwargs
     = Ok (stack_template ["ec2-auto-shutdown"] no_kwargs "asset0" ["Target0"])
  /\ NoDup (map fst
              (Cfn.Resources
                 (stack_template ["ec2-auto-shutdown"] no_kwargs "asset0"
                    ["Target0"])))
  /\ closed (stack_template ["ec2-auto-shutdown"] no_kwargs "asset0"
               ["Target0"]).
Proof.
  split; [apply wf_App|]. split; [reflexivity|].
  exact (@X6_template_ids_and_references repo_fs core.App []
           "ec2-auto-shutdown" no_kwargs _ wf_App eq_refl).
Defined.

